(** * Beta-signal processor: [app/processor.py]

    A shallow embedding of the three functions of the processor module
    ([validate_input_message], [compute_beta_signal], [process_message])
    and the properties of the validation / enrichment pipeline.

    Python dictionaries are finite maps with string keys ([gmap string]),
    whose equality is extensional like Python's [==] on dicts.  Exceptions
    and the module-level logger are threaded through a small state-and-error
    monad: the state is the list of records the logger has received. *)

From Stdlib Require Import QArith.
From stdpp Require Import base option gmap strings list fin_maps.

Set Warnings "-register-all".
Open Scope string_scope.

(** ** Python values *)

(** The values a message can hold ([Any] in the type hints).  A float is
    represented by the rational its literal denotes. *)
Inductive value : Type :=
  | VNone
  | VBool (b : bool)
  | VInt (n : Z)
  | VFloat (q : Q)
  | VStr (s : string)
  | VList (l : list value)
  | VDict (d : gmap string value).

(** [dict[str, Any]] *)
Abbreviation dict := (gmap string value).

(** ** Exceptions *)

Inductive exn : Type :=
  | ValueError (msg : string)
  | KeyError (key : string)
  | TypeError (msg : string).

(** The class of an exception: what an [except] clause dispatches on. *)
Inductive exn_class : Type := ValueErrorT | KeyErrorT | TypeErrorT.

Definition class_of (e : exn) : exn_class :=
  match e with
  | ValueError _ => ValueErrorT
  | KeyError _ => KeyErrorT
  | TypeError _ => TypeErrorT
  end.

Definition message_of (e : exn) : string :=
  match e with
  | ValueError m => m
  | KeyError k => k
  | TypeError m => m
  end.

(** ** The logger *)

Inductive log_level : Type := DEBUG | INFO | ERROR.

(** One call [logger.<level>(fmt, *args)]. *)
Record log_record : Type := LogRecord {
  level : log_level;
  fmt : string;
  args : list value
}.

(** Everything the module-level [logger] has been handed so far. *)
Abbreviation logger_state := (list log_record).

(** ** Computations: logger state and exceptions *)

Inductive outcome (A : Type) : Type :=
  | Return (a : A)
  | Raise (e : exn).
Arguments Return {A} a.
Arguments Raise {A} e.

Definition M (A : Type) : Type := logger_state → outcome A * logger_state.

Definition ret {A} (a : A) : M A := λ σ, (Return a, σ).

Definition bind {A B} (m : M A) (k : A → M B) : M B :=
  λ σ, match m σ with
       | (Return a, σ') => k a σ'
       | (Raise e, σ') => (Raise e, σ')
       end.

Definition raise {A} (e : exn) : M A := λ σ, (Raise e, σ).

Definition log (lv : log_level) (f : string) (a : list value) : M unit :=
  λ σ, (Return tt, (σ ++ [LogRecord lv f a])%list).

#[global] Instance M_ret : MRet M := @ret.
#[global] Instance M_bind : MBind M := λ A B k m, bind m k.

(** ** Dictionary operations of the source *)

(** [d[k]]: [KeyError] when the key is absent. *)
Definition getitem (d : dict) (k : string) : M value :=
  match d !! k with
  | Some v => ret v
  | None => raise (KeyError k)
  end.

(** [k in d] *)
Definition contains (d : dict) (k : string) : bool :=
  bool_decide (is_Some (d !! k)).

Definition type_name (v : value) : string :=
  match v with
  | VNone => "NoneType"
  | VBool _ => "bool"
  | VInt _ => "int"
  | VFloat _ => "float"
  | VStr _ => "str"
  | VList _ => "list"
  | VDict _ => "dict"
  end.

(** The operand of a [**] unpacking must be a mapping. *)
Definition unpack (v : value) : M dict :=
  match v with
  | VDict d => ret d
  | _ => raise (TypeError ("'" +:+ type_name v +:+ "' object is not a mapping"))
  end.

(** [{**a, **b}]: the entries of [a], then those of [b] written over them.
    stdpp's union keeps the left operand on a common key. *)
Definition dict_display2 (a b : dict) : dict := b ∪ a.

(** ** The processor *)

Definition required_keys : list string := ["symbol"; "timestamp"; "data"].

Section Processor.

(** [app.utils.validate_data.validate_message_schema]: the schema check,
    an external collaborator of this module. *)
Variable validate_message_schema : dict → bool.

Definition validate_input_message (message : dict) : M dict :=
  log DEBUG "🔍 Validating message schema..." [];;
  if negb (validate_message_schema message) then
    log ERROR "❌ Message schema invalid: %s" [VDict message];;
    raise (ValueError "Invalid message format")
  else if negb (forallb (λ k, contains message k) required_keys) then
    log ERROR "❌ Missing required keys in message: %s" [VDict message];;
    raise (ValueError "Message is missing required keys")
  else
    ret message.

Definition compute_beta_signal (message : dict) : M dict :=
  symbol ← getitem message "symbol";
  log DEBUG "📊 Computing beta signal for %s" [symbol];;
  let beta_score := VFloat 0.85 in
  timestamp ← getitem message "timestamp";
  ret ({[ "symbol" := symbol;
          "timestamp" := timestamp;
          "beta_score" := beta_score ]} : dict).

Definition process_message (raw_message : dict) : M dict :=
  log INFO "🚦 Processing new message..." [];;
  validated ← validate_input_message raw_message;
  beta_data ← compute_beta_signal validated;
  symbol ← getitem validated "symbol";
  timestamp ← getitem validated "timestamp";
  data ← getitem validated "data";
  data ← unpack data;
  let enriched : dict :=
    {[ "symbol" := symbol;
       "timestamp" := timestamp;
       "data" := VDict (dict_display2 data beta_data) ]} in
  log DEBUG "✅ Final enriched message: %s" [VDict enriched];;
  ret enriched.

End Processor.

(** ** The schema contract *)

(** Modelled from the spec: [app/utils/validate_data.py] and
    [app/utils/types.py] are not among the sources; the data model says a
    message that conforms to the schema has a [data] field that is a
    "nested mapping of arbitrary additional fields".  Presence of the field
    is not part of this contract: it is what the required-key check of
    [validate_input_message] is for. *)
Definition schema_types_data (schema : dict → bool) : Prop :=
  ∀ (m : dict) (v : value),
    schema m = true → m !! "data" = Some v → ∃ d : dict, v = VDict d.

Definition is_str (v : value) : bool :=
  match v with VStr _ => true | _ => false end.

Definition is_dict (v : value) : bool :=
  match v with VDict _ => true | _ => false end.

(** A field, when present, satisfies [p]. *)
Definition field_ok (p : value → bool) (m : dict) (k : string) : bool :=
  match m !! k with
  | Some v => p v
  | None => true
  end.

(** Modelled from the spec: a sample schema with the shape of the data model
    ([symbol] a string identifier, [data] a nested mapping), used to run the
    pipeline on concrete messages.  It checks the fields that are there and
    leaves their presence to the required-key check. *)
Definition shape_schema (m : dict) : bool :=
  field_ok is_str m "symbol" && field_ok is_dict m "data".

(** ** Sample messages *)

Definition aapl_data : dict := {[ "price" := VFloat 150.0 ]}.

Definition aapl_raw : dict :=
  {[ "symbol" := VStr "AAPL";
     "timestamp" := VInt 1700000000;
     "data" := VDict aapl_data ]}.

Definition aapl_enriched : dict :=
  {[ "symbol" := VStr "AAPL";
     "timestamp" := VInt 1700000000;
     "data" := VDict {[ "price" := VFloat 150.0;
                        "symbol" := VStr "AAPL";
                        "timestamp" := VInt 1700000000;
                        "beta_score" := VFloat 0.85 ]} ]}.

(** [timestamp] is missing. *)
Definition no_timestamp_raw : dict :=
  {[ "symbol" := VStr "AAPL"; "data" := VDict ∅ ]}.

(** [symbol] has the wrong type. *)
Definition bad_symbol_raw : dict :=
  {[ "symbol" := VInt 7;
     "timestamp" := VInt 1700000000;
     "data" := VDict ∅ ]}.

(** [symbol] has the wrong type and [timestamp] is missing. *)
Definition bad_symbol_no_timestamp_raw : dict :=
  {[ "symbol" := VInt 7; "data" := VDict ∅ ]}.

(** The payload already carries a [symbol] and a [beta_score] of its own. *)
Definition colliding_raw : dict :=
  {[ "symbol" := VStr "MSFT";
     "timestamp" := VInt 42;
     "data" := VDict {[ "symbol" := VStr "stale";
                        "beta_score" := VFloat 0.1;
                        "volume" := VInt 9 ]} ]}.

(** [data] is not a mapping. *)
Definition scalar_data_raw : dict :=
  {[ "symbol" := VStr "AAPL";
     "timestamp" := VInt 1700000000;
     "data" := VInt 5 ]}.

(** ** The records the module hands to the logger *)

Definition rec_processing : log_record :=
  LogRecord INFO "🚦 Processing new message..." [].

Definition rec_validating : log_record :=
  LogRecord DEBUG "🔍 Validating message schema..." [].

Definition rec_schema_invalid (message : dict) : log_record :=
  LogRecord ERROR "❌ Message schema invalid: %s" [VDict message].

Definition rec_missing_keys (message : dict) : log_record :=
  LogRecord ERROR "❌ Missing required keys in message: %s" [VDict message].

Definition rec_computing (symbol : value) : log_record :=
  LogRecord DEBUG "📊 Computing beta signal for %s" [symbol].

Definition rec_final (enriched : dict) : log_record :=
  LogRecord DEBUG "✅ Final enriched message: %s" [VDict enriched].

(** The mapping [compute_beta_signal] builds from a symbol and a timestamp. *)
Definition signal_result (symbol timestamp : value) : dict :=
  {[ "symbol" := symbol;
     "timestamp" := timestamp;
     "beta_score" := VFloat 0.85 ]}.

(** The mapping [process_message] builds from the three fields it reads. *)
Definition enriched_message (symbol timestamp : value) (data : dict) : dict :=
  {[ "symbol" := symbol;
     "timestamp" := timestamp;
     "data" := VDict (dict_display2 data (signal_result symbol timestamp)) ]}.

(** The statement that [beta_score] is the only key the output payload has
    beyond those of the input payload, for one message. *)
Definition adds_only_beta_score (schema : dict → bool) (raw : dict) : Prop :=
  ∀ (σ : logger_state) (d out d' : dict),
    raw !! "data" = Some (VDict d) →
    (process_message schema raw σ).1 = Return out →
    out !! "data" = Some (VDict d') →
    dom d ⊆ dom d' ∧ ∀ k : string, k ∈ dom d' → k ∉ dom d → k = "beta_score".

(** ** Observing a call *)

(** The records a call has added to a logger that held [σ] before it. *)
Definition emitted {A} (σ : logger_state) (run : outcome A * logger_state) :
    list log_record :=
  drop (length σ) run.2.


(** What the unpacking [{**v, ...}] raises on a [v] that is no mapping. *)
Definition not_a_mapping (v : value) : exn :=
  TypeError ("'" +:+ type_name v +:+ "' object is not a mapping").

(** A message with a top-level field the processor does not know. *)
Definition tagged_raw : dict := <["source" := VStr "queue"]> aapl_raw.

(** ** Running computations *)

Lemma run_bind {A B} (m : M A) (k : A → M B) (σ : logger_state) :
  (m ≫= k) σ =
  match m σ with
  | (Return a, σ') => k a σ'
  | (Raise e, σ') => (Raise e, σ')
  end.
Proof. reflexivity. Qed.

Lemma run_log {B} lv f a (k : M B) (σ : logger_state) :
  (log lv f a;; k) σ = k (σ ++ [LogRecord lv f a])%list.
Proof. reflexivity. Qed.

Lemma run_getitem {B} (d : dict) (key : string) (v : value) (k : value → M B) σ :
  d !! key = Some v → (getitem d key ≫= k) σ = k v σ.
Proof. intros Hv. rewrite run_bind. unfold getitem. by rewrite Hv. Qed.

Lemma run_getitem_missing {B} (d : dict) (key : string) (k : value → M B) σ :
  d !! key = None → (getitem d key ≫= k) σ = (Raise (KeyError key), σ).
Proof. intros Hv. rewrite run_bind. unfold getitem. by rewrite Hv. Qed.

(** ** The required-key check *)

Lemma contains_true (d : dict) (k : string) :
  contains d k = true ↔ is_Some (d !! k).
Proof.
  unfold contains. split.
  - intros H. by apply bool_decide_eq_true in H.
  - intros H. by apply bool_decide_eq_true.
Qed.

Lemma contains_false (d : dict) (k : string) :
  contains d k = false ↔ d !! k = None.
Proof.
  unfold contains. rewrite bool_decide_eq_false. symmetry. apply eq_None_not_Some.
Qed.

Lemma required_keys_present (d : dict) :
  forallb (λ k, contains d k) required_keys = true ↔
  is_Some (d !! "symbol") ∧ is_Some (d !! "timestamp") ∧ is_Some (d !! "data").
Proof.
  unfold required_keys. simpl.
  rewrite !andb_true_iff, !contains_true. tauto.
Qed.

Lemma required_keys_missing (d : dict) :
  forallb (λ k, contains d k) required_keys = false ↔
  d !! "symbol" = None ∨ d !! "timestamp" = None ∨ d !! "data" = None.
Proof.
  unfold required_keys. simpl.
  rewrite !andb_false_iff, !contains_false. intuition discriminate.
Qed.

Lemma shape_schema_types_data : schema_types_data shape_schema.
Proof.
  intros m v Hs Hv. unfold shape_schema, field_ok in Hs.
  rewrite Hv in Hs. apply andb_true_iff in Hs as [_ Hd].
  destruct v; try discriminate. by eexists.
Qed.

(** ** What each function does on each path *)

Section Pipeline.

Variable schema : dict → bool.

Lemma validate_input_message_accepts (raw : dict) (σ : logger_state) :
  schema raw = true →
  forallb (λ k, contains raw k) required_keys = true →
  validate_input_message schema raw σ = (Return raw, σ ++ [rec_validating])%list.
Proof.
  intros Hs Hk. unfold validate_input_message.
  rewrite run_log, Hs, Hk. reflexivity.
Qed.

Lemma validate_input_message_schema_failure (raw : dict) (σ : logger_state) :
  schema raw = false →
  validate_input_message schema raw σ =
  (Raise (ValueError "Invalid message format"),
   σ ++ [rec_validating; rec_schema_invalid raw])%list.
Proof.
  intros Hs. unfold validate_input_message.
  rewrite run_log, Hs. simpl. rewrite run_log.
  unfold raise. by rewrite <- app_assoc.
Qed.

Lemma validate_input_message_missing_keys (raw : dict) (σ : logger_state) :
  schema raw = true →
  forallb (λ k, contains raw k) required_keys = false →
  validate_input_message schema raw σ =
  (Raise (ValueError "Message is missing required keys"),
   σ ++ [rec_validating; rec_missing_keys raw])%list.
Proof.
  intros Hs Hk. unfold validate_input_message.
  rewrite run_log, Hs, Hk. simpl. rewrite run_log.
  unfold raise. by rewrite <- app_assoc.
Qed.

Lemma compute_beta_signal_returns (msg : dict) (s t : value) (σ : logger_state) :
  msg !! "symbol" = Some s →
  msg !! "timestamp" = Some t →
  compute_beta_signal msg σ =
  (Return (signal_result s t), σ ++ [rec_computing s])%list.
Proof.
  intros Hsym Hts. unfold compute_beta_signal.
  rewrite (run_getitem _ _ _ _ _ Hsym), run_log.
  rewrite (run_getitem _ _ _ _ _ Hts). reflexivity.
Qed.

Lemma process_message_returns (raw : dict) (s t : value) (d : dict)
    (σ : logger_state) :
  schema raw = true →
  raw !! "symbol" = Some s →
  raw !! "timestamp" = Some t →
  raw !! "data" = Some (VDict d) →
  process_message schema raw σ =
  (Return (enriched_message s t d),
   σ ++ [rec_processing; rec_validating; rec_computing s;
         rec_final (enriched_message s t d)])%list.
Proof.
  intros Hs Hsym Hts Hdata. unfold process_message.
  rewrite run_log, run_bind, validate_input_message_accepts;
    [| done | apply required_keys_present; eauto].
  rewrite run_bind, (compute_beta_signal_returns raw s t) by done.
  rewrite (run_getitem _ _ _ _ _ Hsym), (run_getitem _ _ _ _ _ Hts).
  rewrite (run_getitem _ _ _ _ _ Hdata). rewrite run_bind. simpl.
  rewrite run_log. unfold mret, M_ret, ret.
  by rewrite <- !app_assoc.
Qed.

Lemma process_message_schema_failure (raw : dict) (σ : logger_state) :
  schema raw = false →
  process_message schema raw σ =
  (Raise (ValueError "Invalid message format"),
   σ ++ [rec_processing; rec_validating; rec_schema_invalid raw])%list.
Proof.
  intros Hs. unfold process_message.
  rewrite run_log, run_bind, validate_input_message_schema_failure by done.
  by rewrite <- app_assoc.
Qed.

Lemma process_message_missing_keys (raw : dict) (σ : logger_state) :
  schema raw = true →
  forallb (λ k, contains raw k) required_keys = false →
  process_message schema raw σ =
  (Raise (ValueError "Message is missing required keys"),
   σ ++ [rec_processing; rec_validating; rec_missing_keys raw])%list.
Proof.
  intros Hs Hk. unfold process_message.
  rewrite run_log, run_bind, validate_input_message_missing_keys by done.
  by rewrite <- app_assoc.
Qed.

(** A message that passes both checks has the three fields, and under the
    schema contract its [data] is a mapping. *)
Lemma valid_fields (raw : dict) :
  schema_types_data schema →
  schema raw = true →
  forallb (λ k, contains raw k) required_keys = true →
  ∃ (s t : value) (d : dict),
    raw !! "symbol" = Some s ∧ raw !! "timestamp" = Some t ∧
    raw !! "data" = Some (VDict d).
Proof.
  intros Hc Hs Hk.
  apply required_keys_present in Hk as ([s Hsym] & [t Hts] & [v Hv]).
  destruct (Hc raw v Hs Hv) as [d ->]. by exists s, t, d.
Qed.

End Pipeline.

(** ** The merged payload *)

Lemma dict_display2_lookup (a b : dict) (k : string) :
  dict_display2 a b !! k =
  match b !! k with
  | Some v => Some v
  | None => a !! k
  end.
Proof.
  unfold dict_display2. rewrite lookup_union.
  destruct (b !! k), (a !! k); reflexivity.
Qed.

Lemma signal_result_dom (s t : value) :
  dom (signal_result s t) = ({[ "symbol"; "timestamp"; "beta_score" ]} : gset string).
Proof. unfold signal_result. rewrite !dom_insert_L, dom_singleton_L. set_solver. Qed.

Lemma dict_display2_dom (a b : dict) :
  dom (dict_display2 a b) = dom a ∪ dom b.
Proof. unfold dict_display2. rewrite dom_union_L. apply (comm_L (∪)). Qed.

Lemma enriched_message_symbol (s t : value) (d : dict) :
  enriched_message s t d !! "symbol" = Some s.
Proof. reflexivity. Qed.

Lemma enriched_message_timestamp (s t : value) (d : dict) :
  enriched_message s t d !! "timestamp" = Some t.
Proof. reflexivity. Qed.

Lemma enriched_message_data (s t : value) (d : dict) :
  enriched_message s t d !! "data" =
  Some (VDict (dict_display2 d (signal_result s t))).
Proof. reflexivity. Qed.

(** ** Properties of the pipeline *)

(** C1, as stated, fails on the sample message
    [{"symbol": "AAPL", "timestamp": 1700000000, "data": {"price": 150.0}}]:
    the message is valid, and the output payload has the key [symbol], which
    the input payload lacks and which is not [beta_score]. *)
Lemma beta_score_not_only_added_key :
  shape_schema aapl_raw = true ∧
  forallb (λ k, contains aapl_raw k) required_keys = true ∧
  ¬ adds_only_beta_score shape_schema aapl_raw.
Proof.
  split; [reflexivity |]. split; [reflexivity |].
  intros Hclaim.
  destruct (Hclaim [] aapl_data
              (enriched_message (VStr "AAPL") (VInt 1700000000) aapl_data)
              (dict_display2 aapl_data
                 (signal_result (VStr "AAPL") (VInt 1700000000))))
    as [_ Honly].
  - reflexivity.
  - by rewrite (process_message_returns shape_schema aapl_raw
                  (VStr "AAPL") (VInt 1700000000) aapl_data).
  - apply enriched_message_data.
  - assert (Heq : "symbol" = "beta_score"); [| discriminate Heq].
    apply Honly.
    + rewrite dict_display2_dom, signal_result_dom. set_solver.
    + unfold aapl_data. rewrite dom_singleton_L. set_solver.
Qed.

(** C1 (amended): for every valid input, the key set of the output payload
    [process(raw)["data"]] is the key set of [raw["data"]] together with the
    three keys of the signal result, [symbol], [timestamp] and [beta_score];
    in particular it contains every key of [raw["data"]]. *)
Theorem process_data_keys (schema : dict → bool) (raw : dict) (σ : logger_state) :
  schema_types_data schema →
  schema raw = true →
  forallb (λ k, contains raw k) required_keys = true →
  ∃ d out d' : dict,
    raw !! "data" = Some (VDict d) ∧
    (process_message schema raw σ).1 = Return out ∧
    out !! "data" = Some (VDict d') ∧
    dom d' = dom d ∪ {[ "symbol"; "timestamp"; "beta_score" ]} ∧
    dom d ⊆ dom d'.
Proof.
  intros Hc Hs Hk.
  destruct (valid_fields schema raw Hc Hs Hk) as (s & t & d & Hsym & Hts & Hd).
  exists d, (enriched_message s t d), (dict_display2 d (signal_result s t)).
  split; [done |]. split.
  { by rewrite (process_message_returns schema raw s t d). }
  split; [apply enriched_message_data |].
  rewrite dict_display2_dom, signal_result_dom. split; [done |].
  apply union_subseteq_l.
Qed.

Lemma process_data_keys_witness :
  ∃ d out d' : dict,
    aapl_raw !! "data" = Some (VDict d) ∧
    (process_message shape_schema aapl_raw []).1 = Return out ∧
    out !! "data" = Some (VDict d') ∧
    dom d' = dom d ∪ {[ "symbol"; "timestamp"; "beta_score" ]} ∧
    dom d ⊆ dom d'.
Proof.
  apply (process_data_keys shape_schema aapl_raw []);
    [apply shape_schema_types_data | reflexivity | reflexivity].
Defined.

(** C2: for every valid input, the [symbol] and [timestamp] of the output are
    those of the input. *)
Theorem process_identity_fields (schema : dict → bool) (raw : dict)
    (σ : logger_state) :
  schema_types_data schema →
  schema raw = true →
  forallb (λ k, contains raw k) required_keys = true →
  ∃ out : dict,
    (process_message schema raw σ).1 = Return out ∧
    out !! "symbol" = raw !! "symbol" ∧
    out !! "timestamp" = raw !! "timestamp".
Proof.
  intros Hc Hs Hk.
  destruct (valid_fields schema raw Hc Hs Hk) as (s & t & d & Hsym & Hts & Hd).
  exists (enriched_message s t d). split.
  { by rewrite (process_message_returns schema raw s t d). }
  rewrite Hsym, Hts. split; reflexivity.
Qed.

Lemma process_identity_fields_witness :
  ∃ out : dict,
    (process_message shape_schema aapl_raw []).1 = Return out ∧
    out !! "symbol" = aapl_raw !! "symbol" ∧
    out !! "timestamp" = aapl_raw !! "timestamp".
Proof.
  apply (process_identity_fields shape_schema aapl_raw []);
    [apply shape_schema_types_data | reflexivity | reflexivity].
Defined.

(** C3: on a message with a [symbol] and a [timestamp], [compute_beta_signal]
    returns exactly the mapping of [symbol], [timestamp] and the constant
    [beta_score] 0.85, and any other message with the same [symbol] and
    [timestamp] (whatever its [data], and whatever the logger has seen) gives
    the same result. *)
Theorem compute_beta_signal_result (msg : dict) (s t : value) (σ : logger_state) :
  msg !! "symbol" = Some s →
  msg !! "timestamp" = Some t →
  (compute_beta_signal msg σ).1 =
    Return ({[ "symbol" := s; "timestamp" := t;
               "beta_score" := VFloat 0.85 ]} : dict) ∧
  ∀ (msg' : dict) (σ' : logger_state),
    msg' !! "symbol" = Some s →
    msg' !! "timestamp" = Some t →
    (compute_beta_signal msg' σ').1 = (compute_beta_signal msg σ).1.
Proof.
  intros Hsym Hts. split.
  - by rewrite (compute_beta_signal_returns msg s t).
  - intros msg' σ' Hsym' Hts'.
    by rewrite (compute_beta_signal_returns msg s t),
               (compute_beta_signal_returns msg' s t).
Qed.

Lemma compute_beta_signal_result_witness :
  (compute_beta_signal aapl_raw []).1 =
    Return ({[ "symbol" := VStr "AAPL"; "timestamp" := VInt 1700000000;
               "beta_score" := VFloat 0.85 ]} : dict) ∧
  (compute_beta_signal colliding_raw []).1 =
    (compute_beta_signal (<["data" := VNone]> colliding_raw) []).1.
Proof.
  split.
  - apply (compute_beta_signal_result aapl_raw (VStr "AAPL") (VInt 1700000000) []);
      reflexivity.
  - apply (compute_beta_signal_result (<["data" := VNone]> colliding_raw)
             (VStr "MSFT") (VInt 42) []); reflexivity.
Defined.

(** C4: an input that passes the schema check and lacks one of [symbol],
    [timestamp], [data] makes [process_message] raise the missing-keys error
    ([ValueError("Message is missing required keys")]); no result is
    returned, and the logger has been told of the missing keys. *)
Theorem process_message_missing_field (schema : dict → bool) (raw : dict)
    (σ : logger_state) :
  schema raw = true →
  raw !! "symbol" = None ∨ raw !! "timestamp" = None ∨ raw !! "data" = None →
  process_message schema raw σ =
  (Raise (ValueError "Message is missing required keys"),
   σ ++ [rec_processing; rec_validating; rec_missing_keys raw])%list.
Proof.
  intros Hs Hmiss. apply process_message_missing_keys; [done |].
  by apply required_keys_missing.
Qed.

Lemma process_message_missing_field_witness :
  process_message shape_schema no_timestamp_raw [] =
  (Raise (ValueError "Message is missing required keys"),
   [rec_processing; rec_validating; rec_missing_keys no_timestamp_raw]).
Proof.
  apply (process_message_missing_field shape_schema no_timestamp_raw []);
    [reflexivity | right; left; reflexivity].
Defined.

(** C5: an input that fails the schema check makes [validate_input_message],
    and so [process_message], raise the schema error
    ([ValueError("Invalid message format")]) whatever keys it has; the
    required-key check is not reached: the logger receives the schema-failure
    record and no missing-keys record. *)
Theorem process_message_schema_error (schema : dict → bool) (raw : dict)
    (σ : logger_state) :
  schema raw = false →
  validate_input_message schema raw σ =
    (Raise (ValueError "Invalid message format"),
     σ ++ [rec_validating; rec_schema_invalid raw])%list ∧
  process_message schema raw σ =
    (Raise (ValueError "Invalid message format"),
     σ ++ [rec_processing; rec_validating; rec_schema_invalid raw])%list ∧
  rec_missing_keys raw ∉ drop (length σ) (process_message schema raw σ).2.
Proof.
  intros Hs. split; [by apply validate_input_message_schema_failure |].
  rewrite process_message_schema_failure by done. split; [done |].
  simpl. rewrite drop_app_length.
  rewrite !not_elem_of_cons. repeat split; try discriminate.
  apply not_elem_of_nil.
Qed.

Lemma process_message_schema_error_witness :
  forallb (λ k, contains bad_symbol_no_timestamp_raw k) required_keys = false ∧
  process_message shape_schema bad_symbol_no_timestamp_raw [] =
    (Raise (ValueError "Invalid message format"),
     [rec_processing; rec_validating;
      rec_schema_invalid bad_symbol_no_timestamp_raw]).
Proof.
  split; [reflexivity |].
  apply (process_message_schema_error shape_schema
           bad_symbol_no_timestamp_raw []); reflexivity.
Defined.

(** C6: for every valid input, the output payload is the union of the input
    payload and the signal result that [compute_beta_signal] returns for the
    message, and on a key that both have the signal result's value is the
    one kept. *)
Theorem process_data_union (schema : dict → bool) (raw : dict) (σ : logger_state) :
  schema_types_data schema →
  schema raw = true →
  forallb (λ k, contains raw k) required_keys = true →
  ∃ d signal out merged : dict,
    raw !! "data" = Some (VDict d) ∧
    (∀ σ', (compute_beta_signal raw σ').1 = Return signal) ∧
    (process_message schema raw σ).1 = Return out ∧
    out !! "data" = Some (VDict merged) ∧
    dom merged = dom d ∪ dom signal ∧
    ∀ k : string,
      merged !! k = match signal !! k with
                    | Some v => Some v
                    | None => d !! k
                    end.
Proof.
  intros Hc Hs Hk.
  destruct (valid_fields schema raw Hc Hs Hk) as (s & t & d & Hsym & Hts & Hd).
  exists d, (signal_result s t), (enriched_message s t d),
    (dict_display2 d (signal_result s t)).
  split; [done |]. split.
  { intros σ'. by rewrite (compute_beta_signal_returns raw s t). }
  split.
  { by rewrite (process_message_returns schema raw s t d). }
  split; [apply enriched_message_data |].
  split; [apply dict_display2_dom |].
  intros k. apply dict_display2_lookup.
Qed.

Lemma process_data_union_witness :
  ∃ d signal out merged : dict,
    colliding_raw !! "data" = Some (VDict d) ∧
    (∀ σ', (compute_beta_signal colliding_raw σ').1 = Return signal) ∧
    (process_message shape_schema colliding_raw []).1 = Return out ∧
    out !! "data" = Some (VDict merged) ∧
    dom merged = dom d ∪ dom signal ∧
    ∀ k : string,
      merged !! k = match signal !! k with
                    | Some v => Some v
                    | None => d !! k
                    end.
Proof.
  apply (process_data_union shape_schema colliding_raw []);
    [apply shape_schema_types_data | reflexivity | reflexivity].
Defined.

(** C7: on an input that passes both checks, [validate_input_message]
    returns its argument, unchanged. *)
Theorem validate_input_message_identity (schema : dict → bool) (raw : dict)
    (σ : logger_state) :
  schema raw = true →
  forallb (λ k, contains raw k) required_keys = true →
  (validate_input_message schema raw σ).1 = Return raw.
Proof.
  intros Hs Hk. by rewrite validate_input_message_accepts.
Qed.

Lemma validate_input_message_identity_witness :
  (validate_input_message shape_schema aapl_raw []).1 = Return aapl_raw.
Proof.
  apply (validate_input_message_identity shape_schema aapl_raw []);
    reflexivity.
Defined.

(** C8: two calls of [process_message] on the same valid input, the second
    one run in the logger state the first one left, return the same output;
    indeed the output is the same from every logger state, the only state
    the module has. *)
Theorem process_message_twice (schema : dict → bool) (raw : dict)
    (σ : logger_state) :
  schema_types_data schema →
  schema raw = true →
  forallb (λ k, contains raw k) required_keys = true →
  ∃ out : dict,
    (process_message schema raw σ).1 = Return out ∧
    (process_message schema raw (process_message schema raw σ).2).1 = Return out ∧
    ∀ σ' : logger_state, (process_message schema raw σ').1 = Return out.
Proof.
  intros Hc Hs Hk.
  destruct (valid_fields schema raw Hc Hs Hk) as (s & t & d & Hsym & Hts & Hd).
  exists (enriched_message s t d).
  assert (Hany : ∀ σ' : logger_state,
             (process_message schema raw σ').1 = Return (enriched_message s t d)).
  { intros σ'. by rewrite (process_message_returns schema raw s t d). }
  auto.
Qed.

Lemma process_message_twice_witness :
  ∃ out : dict,
    (process_message shape_schema aapl_raw []).1 = Return out ∧
    (process_message shape_schema aapl_raw
       (process_message shape_schema aapl_raw []).2).1 = Return out ∧
    ∀ σ' : logger_state, (process_message shape_schema aapl_raw σ').1 = Return out.
Proof.
  apply (process_message_twice shape_schema aapl_raw []);
    [apply shape_schema_types_data | reflexivity | reflexivity].
Defined.

(** C9: the two validation errors are the only failures.  On a message with
    the three keys [compute_beta_signal] returns; once
    [validate_input_message] has returned, [process_message] returns too;
    and whatever [process_message] raises is one of the two errors of the
    validator.  The last two parts rest on the schema contract, which makes
    [data] a mapping. *)
Theorem only_validation_fails (schema : dict → bool) :
  schema_types_data schema →
  (∀ (msg : dict) (σ : logger_state),
     forallb (λ k, contains msg k) required_keys = true →
     ∃ r : dict, (compute_beta_signal msg σ).1 = Return r) ∧
  (∀ (raw validated : dict) (σ : logger_state),
     (validate_input_message schema raw σ).1 = Return validated →
     ∀ σ' : logger_state,
       ∃ out : dict, (process_message schema raw σ').1 = Return out) ∧
  (∀ (raw : dict) (σ : logger_state) (e : exn),
     (process_message schema raw σ).1 = Raise e →
     e = ValueError "Invalid message format" ∨
     e = ValueError "Message is missing required keys").
Proof.
  intros Hc. split; [| split].
  - intros msg σ Hk.
    apply required_keys_present in Hk as ([s Hsym] & [t Hts] & _).
    exists (signal_result s t).
    by rewrite (compute_beta_signal_returns msg s t).
  - intros raw validated σ Hv σ'.
    destruct (schema raw) eqn:Hs.
    + destruct (forallb (λ k, contains raw k) required_keys) eqn:Hk.
      * destruct (valid_fields schema raw Hc Hs Hk)
          as (s & t & d & Hsym & Hts & Hd).
        exists (enriched_message s t d).
        by rewrite (process_message_returns schema raw s t d).
      * by rewrite validate_input_message_missing_keys in Hv.
    + by rewrite validate_input_message_schema_failure in Hv.
  - intros raw σ e He.
    destruct (schema raw) eqn:Hs.
    + destruct (forallb (λ k, contains raw k) required_keys) eqn:Hk.
      * destruct (valid_fields schema raw Hc Hs Hk)
          as (s & t & d & Hsym & Hts & Hd).
        by rewrite (process_message_returns schema raw s t d) in He.
      * rewrite process_message_missing_keys in He by done.
        right. simpl in He. congruence.
    + rewrite process_message_schema_failure in He by done.
      left. simpl in He. congruence.
Qed.

Lemma only_validation_fails_witness :
  (∃ r : dict, (compute_beta_signal scalar_data_raw []).1 = Return r) ∧
  (∃ out : dict, (process_message shape_schema aapl_raw []).1 = Return out) ∧
  (∀ e : exn,
     (process_message shape_schema scalar_data_raw []).1 = Raise e →
     e = ValueError "Invalid message format" ∨
     e = ValueError "Message is missing required keys").
Proof.
  destruct (only_validation_fails shape_schema shape_schema_types_data)
    as (Hcompute & Hrest & Hraise).
  split; [apply Hcompute; reflexivity |].
  split; [apply (Hrest aapl_raw aapl_raw []); reflexivity |].
  apply (Hraise scalar_data_raw []).
Defined.

(** C10: the schema failure and the missing-keys failure raise exceptions of
    one class, [ValueError]; they differ in their message text only, and
    [process_message] hands both to its caller as they are. *)
Theorem validation_errors_one_class (schema : dict → bool) (raw1 raw2 : dict)
    (σ1 σ2 : logger_state) :
  schema raw1 = false →
  schema raw2 = true →
  forallb (λ k, contains raw2 k) required_keys = false →
  ∃ e1 e2 : exn,
    (validate_input_message schema raw1 σ1).1 = Raise e1 ∧
    (validate_input_message schema raw2 σ2).1 = Raise e2 ∧
    (process_message schema raw1 σ1).1 = Raise e1 ∧
    (process_message schema raw2 σ2).1 = Raise e2 ∧
    class_of e1 = ValueErrorT ∧
    class_of e2 = ValueErrorT ∧
    message_of e1 = "Invalid message format" ∧
    message_of e2 = "Message is missing required keys" ∧
    e1 ≠ e2.
Proof.
  intros Hs1 Hs2 Hk2.
  exists (ValueError "Invalid message format"),
    (ValueError "Message is missing required keys").
  rewrite validate_input_message_schema_failure by done.
  rewrite validate_input_message_missing_keys by done.
  rewrite process_message_schema_failure by done.
  rewrite process_message_missing_keys by done.
  repeat split; discriminate.
Qed.

Lemma validation_errors_one_class_witness :
  ∃ e1 e2 : exn,
    (validate_input_message shape_schema bad_symbol_raw []).1 = Raise e1 ∧
    (validate_input_message shape_schema no_timestamp_raw []).1 = Raise e2 ∧
    (process_message shape_schema bad_symbol_raw []).1 = Raise e1 ∧
    (process_message shape_schema no_timestamp_raw []).1 = Raise e2 ∧
    class_of e1 = ValueErrorT ∧
    class_of e2 = ValueErrorT ∧
    message_of e1 = "Invalid message format" ∧
    message_of e2 = "Message is missing required keys" ∧
    e1 ≠ e2.
Proof.
  apply (validation_errors_one_class shape_schema bad_symbol_raw
           no_timestamp_raw [] []); reflexivity.
Defined.

(** ** The pipeline on the sample messages *)

Example process_message_aapl :
  (process_message shape_schema aapl_raw []).1 = Return aapl_enriched.
Proof. vm_compute. reflexivity. Qed.

Example process_message_aapl_trace :
  (process_message shape_schema aapl_raw []).2 =
  [rec_processing; rec_validating; rec_computing (VStr "AAPL");
   rec_final aapl_enriched].
Proof. vm_compute. reflexivity. Qed.

Example process_message_no_timestamp :
  (process_message shape_schema no_timestamp_raw []).1 =
  Raise (ValueError "Message is missing required keys").
Proof. reflexivity. Qed.

Example process_message_bad_symbol :
  (process_message shape_schema bad_symbol_raw []).1 =
  Raise (ValueError "Invalid message format").
Proof. reflexivity. Qed.

(** The payload's own [symbol] and [beta_score] are overwritten. *)
Example process_message_colliding :
  (process_message shape_schema colliding_raw []).1 =
  Return ({[ "symbol" := VStr "MSFT";
             "timestamp" := VInt 42;
             "data" := VDict {[ "symbol" := VStr "MSFT";
                                "timestamp" := VInt 42;
                                "beta_score" := VFloat 0.85;
                                "volume" := VInt 9 ]} ]} : dict).
Proof. vm_compute. reflexivity. Qed.

(** Under a schema check that accepts everything, and so does not keep the
    contract, a [data] that is not a mapping passes validation and the
    unpacking in [process_message] raises [TypeError]. *)
Example process_message_scalar_data :
  (validate_input_message (λ _, true) scalar_data_raw []).1 =
    Return scalar_data_raw ∧
  (process_message (λ _, true) scalar_data_raw []).1 =
    Raise (TypeError "'int' object is not a mapping").
Proof. split; reflexivity. Qed.

(** A message without [symbol] never reaches [compute_beta_signal] through
    the pipeline; called directly on it, the function raises [KeyError]. *)
Example compute_beta_signal_no_symbol :
  (compute_beta_signal ∅ []).1 = Raise (KeyError "symbol").
Proof. reflexivity. Qed.

(** ** The paths of [process_message], without the schema contract *)

Lemma emitted_app {A} (σ recs : logger_state) (o : outcome A) :
  emitted σ (o, (σ ++ recs)%list) = recs.
Proof. unfold emitted. simpl. apply drop_app_length. Qed.

Lemma is_dict_false_unpack (v : value) (σ : logger_state) :
  is_dict v = false → unpack v σ = (Raise (not_a_mapping v), σ).
Proof. by destruct v. Qed.

Lemma process_message_not_mapping (schema : dict → bool) (raw : dict)
    (s t v : value) (σ : logger_state) :
  schema raw = true →
  raw !! "symbol" = Some s →
  raw !! "timestamp" = Some t →
  raw !! "data" = Some v →
  is_dict v = false →
  process_message schema raw σ =
  (Raise (not_a_mapping v),
   σ ++ [rec_processing; rec_validating; rec_computing s])%list.
Proof.
  intros Hs Hsym Hts Hdata Hv. unfold process_message.
  rewrite run_log, run_bind, validate_input_message_accepts;
    [| done | apply required_keys_present; eauto].
  rewrite run_bind, (compute_beta_signal_returns raw s t) by done.
  rewrite (run_getitem _ _ _ _ _ Hsym), (run_getitem _ _ _ _ _ Hts).
  rewrite (run_getitem _ _ _ _ _ Hdata). rewrite run_bind.
  rewrite is_dict_false_unpack by done.
  by rewrite <- !app_assoc.
Qed.

(** Every message takes one of four paths. *)
Lemma message_paths (schema : dict → bool) (raw : dict) :
  schema raw = false ∨
  (schema raw = true ∧ forallb (λ k, contains raw k) required_keys = false) ∨
  (∃ (s t : value) (d : dict),
     schema raw = true ∧ raw !! "symbol" = Some s ∧
     raw !! "timestamp" = Some t ∧ raw !! "data" = Some (VDict d)) ∨
  (∃ s t v : value,
     schema raw = true ∧ raw !! "symbol" = Some s ∧
     raw !! "timestamp" = Some t ∧ raw !! "data" = Some v ∧
     is_dict v = false).
Proof.
  destruct (schema raw) eqn:Hs; [| by left].
  destruct (forallb (λ k, contains raw k) required_keys) eqn:Hk;
    [| right; left; done].
  apply required_keys_present in Hk as ([s Hsym] & [t Hts] & [v Hv]).
  destruct (is_dict v) eqn:Hd.
  - right; right; left. destruct v; try discriminate. by exists s, t, d.
  - right; right; right. by exists s, t, v.
Qed.

Lemma dict_display2_again (a b : dict) :
  dict_display2 (dict_display2 a b) b = dict_display2 a b.
Proof.
  apply map_eq. intros k. rewrite !dict_display2_lookup.
  by destruct (b !! k).
Qed.

Lemma enriched_message_dom (s t : value) (d : dict) :
  dom (enriched_message s t d) = ({[ "symbol"; "timestamp"; "data" ]} : gset string).
Proof.
  unfold enriched_message. rewrite !dom_insert_L, dom_singleton_L. set_solver.
Qed.

(** What a returned message tells about the input. *)
Lemma process_message_returned (schema : dict → bool) (raw out : dict)
    (σ : logger_state) :
  (process_message schema raw σ).1 = Return out →
  ∃ (s t : value) (d : dict),
    schema raw = true ∧ raw !! "symbol" = Some s ∧
    raw !! "timestamp" = Some t ∧ raw !! "data" = Some (VDict d) ∧
    out = enriched_message s t d.
Proof.
  intros Hout.
  destruct (message_paths schema raw)
    as [Hs | [[Hs Hk] | [(s & t & d & Hs & Hsym & Hts & Hd)
                        | (s & t & v & Hs & Hsym & Hts & Hd & Hv)]]].
  - by rewrite process_message_schema_failure in Hout.
  - by rewrite process_message_missing_keys in Hout.
  - rewrite (process_message_returns schema raw s t d) in Hout by done.
    simpl in Hout. injection Hout as <-. by exists s, t, d.
  - by rewrite (process_message_not_mapping schema raw s t v) in Hout.
Qed.

(** ** Further properties of the three functions *)

(** X1: when [process_message] returns, the logger has received exactly four
    records, in this order: the entry record, the start of validation, the
    symbol being computed, and the final record, whose payload is the very
    message returned. *)
Theorem process_message_trace (schema : dict → bool) (raw out : dict)
    (σ : logger_state) :
  (process_message schema raw σ).1 = Return out →
  ∃ s : value,
    raw !! "symbol" = Some s ∧
    emitted σ (process_message schema raw σ) =
      [rec_processing; rec_validating; rec_computing s; rec_final out].
Proof.
  intros Hout.
  destruct (message_paths schema raw)
    as [Hs | [[Hs Hk] | [(s & t & d & Hs & Hsym & Hts & Hd)
                        | (s & t & v & Hs & Hsym & Hts & Hd & Hv)]]].
  - by rewrite process_message_schema_failure in Hout.
  - by rewrite process_message_missing_keys in Hout.
  - rewrite (process_message_returns schema raw s t d) in Hout |- * by done.
    simpl in Hout. injection Hout as <-.
    exists s. split; [done |]. apply emitted_app.
  - by rewrite (process_message_not_mapping schema raw s t v) in Hout.
Qed.

Lemma process_message_trace_witness :
  ∃ s : value,
    aapl_raw !! "symbol" = Some s ∧
    emitted [rec_validating] (process_message shape_schema aapl_raw [rec_validating]) =
      [rec_processing; rec_validating; rec_computing s;
       rec_final (enriched_message (VStr "AAPL") (VInt 1700000000) aapl_data)].
Proof.
  apply (process_message_trace shape_schema aapl_raw
           (enriched_message (VStr "AAPL") (VInt 1700000000) aapl_data)
           [rec_validating]).
  by rewrite (process_message_returns shape_schema aapl_raw
                (VStr "AAPL") (VInt 1700000000) aapl_data).
Defined.

(** X2: the three ways [compute_beta_signal] ends.  Without a [symbol] it
    raises [KeyError('symbol')] before anything is logged; with a [symbol]
    and no [timestamp] it logs the symbol and then raises
    [KeyError('timestamp')]; with both it logs the symbol and returns the
    signal. *)
Theorem compute_beta_signal_cases (msg : dict) (σ : logger_state) :
  compute_beta_signal msg σ =
  match msg !! "symbol", msg !! "timestamp" with
  | None, _ => (Raise (KeyError "symbol"), σ)
  | Some s, None => (Raise (KeyError "timestamp"), σ ++ [rec_computing s])%list
  | Some s, Some t => (Return (signal_result s t), σ ++ [rec_computing s])%list
  end.
Proof.
  unfold compute_beta_signal.
  destruct (msg !! "symbol") as [s |] eqn:Hsym.
  - rewrite (run_getitem _ _ _ _ _ Hsym), run_log.
    destruct (msg !! "timestamp") as [t |] eqn:Hts.
    + by rewrite (run_getitem _ _ _ _ _ Hts).
    + by rewrite (run_getitem_missing _ _ _ _ Hts).
  - by rewrite (run_getitem_missing _ _ _ _ Hsym).
Qed.

(** X3: a message that passes both checks of the validator and whose [data]
    is not a mapping makes [process_message] raise
    [TypeError("'<type>' object is not a mapping")] at the merge: the signal
    has been computed and logged by then, and no final record is logged. *)
Theorem process_message_data_not_mapping (schema : dict → bool) (raw : dict)
    (v : value) (σ : logger_state) :
  schema raw = true →
  forallb (λ k, contains raw k) required_keys = true →
  raw !! "data" = Some v →
  is_dict v = false →
  (process_message schema raw σ).1 =
    Raise (TypeError ("'" +:+ type_name v +:+ "' object is not a mapping")) ∧
  ∃ s : value,
    raw !! "symbol" = Some s ∧
    emitted σ (process_message schema raw σ) =
      [rec_processing; rec_validating; rec_computing s].
Proof.
  intros Hs Hk Hd Hv.
  apply required_keys_present in Hk as ([s Hsym] & [t Hts] & _).
  rewrite (process_message_not_mapping schema raw s t v) by done.
  split; [done |]. exists s. split; [done |]. apply emitted_app.
Qed.

Lemma process_message_data_not_mapping_witness :
  (process_message (λ _, true) scalar_data_raw []).1 =
    Raise (TypeError "'int' object is not a mapping") ∧
  ∃ s : value,
    scalar_data_raw !! "symbol" = Some s ∧
    emitted [] (process_message (λ _, true) scalar_data_raw []) =
      [rec_processing; rec_validating; rec_computing s].
Proof.
  apply (process_message_data_not_mapping (λ _, true) scalar_data_raw (VInt 5) []);
    reflexivity.
Defined.

(** X4: [validate_input_message] returns exactly when the schema check
    accepts the message and the three required keys are present, and what it
    returns is then its argument. *)
Theorem validate_input_message_returns_iff (schema : dict → bool)
    (raw validated : dict) (σ : logger_state) :
  (validate_input_message schema raw σ).1 = Return validated ↔
  validated = raw ∧ schema raw = true ∧
  is_Some (raw !! "symbol") ∧ is_Some (raw !! "timestamp") ∧
  is_Some (raw !! "data").
Proof.
  split.
  - intros Hv. destruct (schema raw) eqn:Hs.
    + destruct (forallb (λ k, contains raw k) required_keys) eqn:Hk.
      * rewrite validate_input_message_accepts in Hv by done.
        simpl in Hv. injection Hv as <-.
        apply required_keys_present in Hk. by intuition.
      * by rewrite validate_input_message_missing_keys in Hv.
    + by rewrite validate_input_message_schema_failure in Hv.
  - intros (-> & Hs & Hk). apply required_keys_present in Hk.
    by rewrite validate_input_message_accepts.
Qed.

(** X5: [process_message] returns exactly when the schema check accepts the
    message, the three required keys are present and [data] is a mapping;
    what it returns is then the message built from these three fields and
    the signal. *)
Theorem process_message_returns_iff (schema : dict → bool) (raw out : dict)
    (σ : logger_state) :
  (process_message schema raw σ).1 = Return out ↔
  schema raw = true ∧
  ∃ (s t : value) (d : dict),
    raw !! "symbol" = Some s ∧ raw !! "timestamp" = Some t ∧
    raw !! "data" = Some (VDict d) ∧
    out = {[ "symbol" := s; "timestamp" := t;
             "data" := VDict (signal_result s t ∪ d) ]}.
Proof.
  split.
  - intros Hout.
    apply process_message_returned in Hout
      as (s & t & d & Hs & Hsym & Hts & Hd & ->).
    split; [done |]. by exists s, t, d.
  - intros (Hs & s & t & d & Hsym & Hts & Hd & ->).
    by rewrite (process_message_returns schema raw s t d).
Qed.

(** Membership in a literal list of records, spelled out. *)
Ltac split_elem H :=
  repeat (apply elem_of_cons in H as [H | H]);
  [.. | by apply elem_of_nil in H]; subst.

(** X6: every call of [process_message], whatever the message and whether
    it returns or raises, only appends to the logger; it first logs the
    entry record and the start of validation, and then at most two records
    more.  The records appended do not depend on what the logger held. *)
Theorem process_message_log_prefix (schema : dict → bool) (raw : dict) :
  ∃ rest : list log_record,
    (length rest ≤ 2)%nat ∧
    ∀ σ : logger_state,
      (process_message schema raw σ).2 =
      (σ ++ rec_processing :: rec_validating :: rest)%list.
Proof.
  destruct (message_paths schema raw)
    as [Hs | [[Hs Hk] | [(s & t & d & Hs & Hsym & Hts & Hd)
                        | (s & t & v & Hs & Hsym & Hts & Hd & Hv)]]].
  - exists [rec_schema_invalid raw]. split; [simpl; lia |]. intros σ.
    by rewrite process_message_schema_failure.
  - exists [rec_missing_keys raw]. split; [simpl; lia |]. intros σ.
    by rewrite process_message_missing_keys.
  - exists [rec_computing s; rec_final (enriched_message s t d)].
    split; [simpl; lia |]. intros σ.
    by rewrite (process_message_returns schema raw s t d).
  - exists [rec_computing s]. split; [simpl; lia |]. intros σ.
    by rewrite (process_message_not_mapping schema raw s t v).
Qed.


(** X8: a message returned by [process_message] has the three top-level
    keys [symbol], [timestamp] and [data] and no other: further top-level
    fields of the input are not carried over. *)
Theorem process_message_output_keys (schema : dict → bool) (raw out : dict)
    (σ : logger_state) :
  (process_message schema raw σ).1 = Return out →
  dom out = {[ "symbol"; "timestamp"; "data" ]}.
Proof.
  intros Hout.
  apply process_message_returned in Hout as (s & t & d & _ & _ & _ & _ & ->).
  apply enriched_message_dom.
Qed.

Lemma process_message_output_keys_witness :
  dom (enriched_message (VStr "AAPL") (VInt 1700000000) aapl_data) =
    ({[ "symbol"; "timestamp"; "data" ]} : gset string) ∧
  "source" ∈ dom tagged_raw.
Proof.
  split.
  - apply (process_message_output_keys shape_schema tagged_raw
             (enriched_message (VStr "AAPL") (VInt 1700000000) aapl_data) []).
    by rewrite (process_message_returns shape_schema tagged_raw
                  (VStr "AAPL") (VInt 1700000000) aapl_data).
  - unfold tagged_raw. rewrite dom_insert_L. set_solver.
Defined.

(** X9: in a message returned by [process_message] the payload's [symbol]
    and [timestamp] are the top-level ones and its [beta_score] is 0.85,
    whatever the input payload held under these keys; every other key of the
    payload has the value the input payload gave it. *)
Theorem process_message_payload_fields (schema : dict → bool) (raw out : dict)
    (σ : logger_state) :
  (process_message schema raw σ).1 = Return out →
  ∃ d merged : dict,
    raw !! "data" = Some (VDict d) ∧
    out !! "data" = Some (VDict merged) ∧
    merged !! "symbol" = out !! "symbol" ∧
    merged !! "timestamp" = out !! "timestamp" ∧
    merged !! "beta_score" = Some (VFloat 0.85) ∧
    ∀ k : string,
      k ≠ "symbol" → k ≠ "timestamp" → k ≠ "beta_score" →
      merged !! k = d !! k.
Proof.
  intros Hout.
  apply process_message_returned in Hout as (s & t & d & _ & _ & _ & Hd & ->).
  exists d, (dict_display2 d (signal_result s t)).
  split; [done |]. split; [apply enriched_message_data |].
  rewrite enriched_message_symbol, enriched_message_timestamp.
  rewrite !dict_display2_lookup. repeat split.
  intros k Hk1 Hk2 Hk3. rewrite dict_display2_lookup.
  unfold signal_result.
  by rewrite !lookup_insert_ne, lookup_singleton_ne.
Qed.

Lemma process_message_payload_fields_witness :
  ∃ d merged : dict,
    colliding_raw !! "data" = Some (VDict d) ∧
    enriched_message (VStr "MSFT") (VInt 42)
      {[ "symbol" := VStr "stale"; "beta_score" := VFloat 0.1;
         "volume" := VInt 9 ]} !! "data" = Some (VDict merged) ∧
    merged !! "symbol" = Some (VStr "MSFT") ∧
    merged !! "timestamp" = Some (VInt 42) ∧
    merged !! "beta_score" = Some (VFloat 0.85) ∧
    ∀ k : string,
      k ≠ "symbol" → k ≠ "timestamp" → k ≠ "beta_score" →
      merged !! k = d !! k.
Proof.
  apply (process_message_payload_fields shape_schema colliding_raw
           (enriched_message (VStr "MSFT") (VInt 42)
              {[ "symbol" := VStr "stale"; "beta_score" := VFloat 0.1;
                 "volume" := VInt 9 ]}) []).
  by rewrite (process_message_returns shape_schema colliding_raw
                (VStr "MSFT") (VInt 42)
                {[ "symbol" := VStr "stale"; "beta_score" := VFloat 0.1;
                   "volume" := VInt 9 ]}).
Defined.

(** X10: an enriched message is a fixed point of the pipeline: when
    [process_message] has returned [out] and the schema check accepts [out],
    processing [out] returns [out] again. *)
Theorem process_message_reprocess (schema : dict → bool) (raw out : dict)
    (σ σ' : logger_state) :
  (process_message schema raw σ).1 = Return out →
  schema out = true →
  (process_message schema out σ').1 = Return out.
Proof.
  intros Hout Hs.
  apply process_message_returned in Hout as (s & t & d & _ & _ & _ & _ & ->).
  rewrite (process_message_returns schema (enriched_message s t d) s t
             (dict_display2 d (signal_result s t)));
    [| done | apply enriched_message_symbol | apply enriched_message_timestamp
     | apply enriched_message_data].
  simpl. unfold enriched_message at 1. by rewrite dict_display2_again.
Qed.

Lemma process_message_reprocess_witness :
  (process_message shape_schema
     (enriched_message (VStr "AAPL") (VInt 1700000000) aapl_data) []).1 =
  Return (enriched_message (VStr "AAPL") (VInt 1700000000) aapl_data).
Proof.
  apply (process_message_reprocess shape_schema aapl_raw
           (enriched_message (VStr "AAPL") (VInt 1700000000) aapl_data) [] []).
  - by rewrite (process_message_returns shape_schema aapl_raw
                  (VStr "AAPL") (VInt 1700000000) aapl_data).
  - reflexivity.
Defined.

(** X11: [process_message] never raises a [KeyError]: the subscripts it and
    [compute_beta_signal] evaluate are guarded by the required-key check.
    What it raises is one of the two [ValueError]s of the validator or, for
    a [data] that is no mapping, the [TypeError] of the merge. *)
Theorem process_message_exceptions (schema : dict → bool) (raw : dict)
    (σ : logger_state) (e : exn) :
  (process_message schema raw σ).1 = Raise e →
  class_of e ≠ KeyErrorT ∧
  (e = ValueError "Invalid message format" ∧ schema raw = false ∨
   e = ValueError "Message is missing required keys" ∧ schema raw = true ∧
     forallb (λ k, contains raw k) required_keys = false ∨
   ∃ v : value,
     raw !! "data" = Some v ∧ is_dict v = false ∧
     e = TypeError ("'" +:+ type_name v +:+ "' object is not a mapping")).
Proof.
  intros He.
  destruct (message_paths schema raw)
    as [Hs | [[Hs Hk] | [(s & t & d & Hs & Hsym & Hts & Hd)
                        | (s & t & v & Hs & Hsym & Hts & Hd & Hv)]]].
  - rewrite process_message_schema_failure in He by done.
    simpl in He. injection He as <-. split; [done |]. by left.
  - rewrite process_message_missing_keys in He by done.
    simpl in He. injection He as <-. split; [done |]. right; left. done.
  - by rewrite (process_message_returns schema raw s t d) in He.
  - rewrite (process_message_not_mapping schema raw s t v) in He by done.
    simpl in He. injection He as <-. split; [done |].
    right; right. by exists v.
Qed.

Lemma process_message_exceptions_witness :
  class_of (ValueError "Message is missing required keys") ≠ KeyErrorT ∧
  (ValueError "Message is missing required keys" =
     ValueError "Invalid message format" ∧ shape_schema ∅ = false ∨
   ValueError "Message is missing required keys" =
     ValueError "Message is missing required keys" ∧ shape_schema ∅ = true ∧
     forallb (λ k, contains (∅ : dict) k) required_keys = false ∨
   ∃ v : value,
     (∅ : dict) !! "data" = Some v ∧ is_dict v = false ∧
     ValueError "Message is missing required keys" =
       TypeError ("'" +:+ type_name v +:+ "' object is not a mapping")).
Proof.
  apply (process_message_exceptions shape_schema ∅ []). reflexivity.
Defined.

(** X12: a top-level field other than [symbol], [timestamp] and [data] has
    no effect on a message that has the three required keys: with or
    without it, as long as the schema check accepts both messages,
    [process_message] gives the same outcome and logs the same records. *)
Theorem process_message_ignores_other_keys (schema : dict → bool) (raw : dict)
    (k : string) (v : value) (σ : logger_state) :
  k ≠ "symbol" → k ≠ "timestamp" → k ≠ "data" →
  schema raw = true →
  schema (<[k := v]> raw) = true →
  forallb (λ k, contains raw k) required_keys = true →
  process_message schema (<[k := v]> raw) σ = process_message schema raw σ.
Proof.
  intros Hk1 Hk2 Hk3 Hs Hs' Hk.
  destruct (message_paths schema raw)
    as [Hf | [[_ Hf] | [(s & t & d & _ & Hsym & Hts & Hd)
                       | (s & t & w & _ & Hsym & Hts & Hd & Hw)]]];
    [congruence | congruence | |].
  - rewrite (process_message_returns schema raw s t d) by done.
    apply (process_message_returns schema (<[k := v]> raw) s t d);
      [done | ..]; by rewrite lookup_insert_ne.
  - rewrite (process_message_not_mapping schema raw s t w) by done.
    apply (process_message_not_mapping schema (<[k := v]> raw) s t w);
      [done | .. | done]; by rewrite lookup_insert_ne.
Qed.

Lemma process_message_ignores_other_keys_witness :
  process_message shape_schema tagged_raw [] =
  process_message shape_schema aapl_raw [].
Proof.
  apply (process_message_ignores_other_keys shape_schema aapl_raw
           "source" (VStr "queue") []); (discriminate || reflexivity).
Defined.

(** X13: a message that lacks one of the three required keys is never
    processed, whatever the schema check says of it: [process_message]
    raises a [ValueError] and [compute_beta_signal] is not reached, so no
    record naming a symbol is logged. *)
Theorem process_message_missing_key_any_schema (schema : dict → bool)
    (raw : dict) (σ : logger_state) :
  raw !! "symbol" = None ∨ raw !! "timestamp" = None ∨ raw !! "data" = None →
  (∃ m : string, (process_message schema raw σ).1 = Raise (ValueError m)) ∧
  ∀ s : value, rec_computing s ∉ emitted σ (process_message schema raw σ).
Proof.
  intros Hmiss. apply required_keys_missing in Hmiss.
  destruct (schema raw) eqn:Hs.
  - rewrite process_message_missing_keys by done. rewrite emitted_app.
    split; [by eexists |]. intros s Hin. split_elem Hin; discriminate.
  - rewrite process_message_schema_failure by done. rewrite emitted_app.
    split; [by eexists |]. intros s Hin. split_elem Hin; discriminate.
Qed.

Lemma process_message_missing_key_any_schema_witness :
  (∃ m : string,
     (process_message (λ _, true) no_timestamp_raw []).1 = Raise (ValueError m)) ∧
  ∀ s : value,
    rec_computing s ∉ emitted [] (process_message (λ _, true) no_timestamp_raw []).
Proof.
  apply (process_message_missing_key_any_schema (λ _, true) no_timestamp_raw []).
  right; left. reflexivity.
Defined.
